(** * Library management store: borrow/return lifecycle, users, settings, audit

    A shallow embedding of [src/evanjo/database.py].  Every function of the
    module opens a connection to one SQLite file, runs its statements,
    commits and closes; the store is single-process, so a call is modelled
    as a function from the database state before the call to the outcome
    and the database state after it.

    Conventions of the embedding:
    - a table with an [INTEGER PRIMARY KEY AUTOINCREMENT] column is a finite
      map from row id to row, together with the counter SQLite keeps in
      [sqlite_sequence];
    - the [users] and [audit_log] tables are lists of rows in insertion
      (row id) order, because they are scanned by [username] or appended;
    - a [TEXT] column that only ever receives [datetime.isoformat()] is
      modelled by the [datetime] it encodes ([fromisoformat] inverts
      [isoformat]);
    - a Python [float] is an IEEE 754 binary64 number, modelled by the
      primitive [float] type, and a [REAL] column holds such a number or
      [NULL];
    - an f-string is kept as the list of its pieces, before rendering;
    - the clock ([datetime.now()]) and the salt ([bcrypt.gensalt()]) are
      inputs of the call that reads them;
    - the library functions [float], [bcrypt.hashpw] and [bcrypt.checkpw]
      are parameters of the sections that use them. *)

From Stdlib Require Import ZArith Ascii String PrimFloat Uint63 SpecFloat FloatOps FloatAxioms.
From stdpp Require Import gmap strings list fin_maps.

Local Open Scope string_scope.
Local Open Scope Z_scope.

(** ** Python values *)

(** A naive [datetime]: the proleptic Gregorian ordinal of its [date()] and
    the microseconds elapsed since midnight. *)
Record datetime := DateTime { dt_day : Z; dt_micro : Z }.

(** [date.min.toordinal()] and [date.max.toordinal()]. *)
Definition MINORD : Z := 1.
Definition MAXORD : Z := 3652059.

(** [now + timedelta(days=n)]; [None] stands for the [OverflowError] Python
    raises when the day leaves the representable range. *)
Definition add_days (now : datetime) (n : Z) : option datetime :=
  let d := dt_day now + n in
  if bool_decide (MINORD ≤ d ≤ MAXORD)
  then Some {| dt_day := d; dt_micro := dt_micro now |}
  else None.

(** [(a.date() - b.date()).days] *)
Definition days_between (a b : datetime) : Z := dt_day a - dt_day b.

(** Conversion of a Python [int] to [float] in a mixed product; exact below
    [2^53], which covers every difference of two date ordinals. *)
Definition float_of_int (z : Z) : float :=
  if z <? 0
  then PrimFloat.opp (PrimFloat.of_uint63 (Uint63.of_Z (- z)))
  else PrimFloat.of_uint63 (Uint63.of_Z z).

(** What a [REAL] column holds after a Python [float] was bound to it:
    SQLite stores a NaN as [NULL] and every other number as it is. *)
Definition bind_real (x : float) : option float :=
  if PrimFloat.is_nan x then None else Some x.

(** The pieces of an f-string. *)
Inductive piece :=
  | Lit (s : string)            (* literal text or an interpolated [str] *)
  | Int (z : Z)                 (* [{n}] for an [int] *)
  | Date (day : Z)              (* [{d}] for a [date], by its ordinal *)
  | Flt (x : float)             (* [{x}] for a [float] *)
  | Flt2 (x : float).           (* [{x:.2f}] *)

Abbreviation text := (list piece).

(** [actor or "unknown"]: [None] and the empty string are falsy. *)
Definition or_unknown (actor : option string) : string :=
  match actor with
  | None => "unknown"
  | Some a => if decide (a = "") then "unknown" else a
  end.

(** ** Rows and tables *)

Record book := Book {
  title : string;
  author : option string;
  category : option string;
  isbn : option string;
  available : Z
}.

Record member := Member {
  name : string;
  email : option string
}.

Record loan := Loan {
  book_id : Z;
  member_id : Z;
  date_borrowed : datetime;
  date_due : datetime;
  date_returned : option datetime;
  late_fee : option float
}.

Record user := User {
  user_id : Z;
  username : string;
  password_hash : string;
  role : string
}.

Record audit_row := AuditRow {
  actor : string;
  action : string;
  details : text;
  created_at : datetime
}.

(** A table keyed by an AUTOINCREMENT row id. *)
Record table (A : Type) := Table {
  rows : gmap Z A;
  autoinc : Z
}.
Arguments Table {A} _ _.
Arguments rows {A} _.
Arguments autoinc {A} _.

(** Largest row id in use (0 for an empty table: ids start at 1). *)
Definition max_rowid {A} (m : gmap Z A) : Z :=
  map_fold (λ k _ acc, Z.max k acc) 0 m.

(** The id an AUTOINCREMENT insert assigns: one more than the largest id
    the table has ever held. *)
Definition next_rowid {A} (t : table A) : Z :=
  1 + Z.max (autoinc t) (max_rowid (rows t)).

Definition insert_row {A} (x : A) (t : table A) : table A :=
  let i := next_rowid t in
  {| rows := <[i := x]> (rows t); autoinc := i |}.

(** [UPDATE t SET ... WHERE id=?] *)
Definition update_row {A} (f : A → A) (i : Z) (t : table A) : table A :=
  {| rows := alter f i (rows t); autoinc := autoinc t |}.

(** [DELETE FROM t WHERE id=?] *)
Definition delete_row {A} (i : Z) (t : table A) : table A :=
  {| rows := delete i (rows t); autoinc := autoinc t |}.

(** The integers an SQLite [INTEGER] holds.  Binding any other Python [int]
    to a parameter of a statement raises [OverflowError] before the
    statement runs. *)
Definition fits_int64 (z : Z) : bool :=
  bool_decide (- 2 ^ 63 ≤ z < 2 ^ 63).

Record db := Db {
  books : table book;
  members : table member;
  loans : table loan;
  settings : gmap string string;
  users : list user;
  users_autoinc : Z;
  audit_log : list audit_row
}.

Definition with_books (s : db) (b : table book) : db :=
  {| books := b; members := members s; loans := loans s;
     settings := settings s; users := users s;
     users_autoinc := users_autoinc s; audit_log := audit_log s |}.

Definition with_members (s : db) (m : table member) : db :=
  {| books := books s; members := m; loans := loans s;
     settings := settings s; users := users s;
     users_autoinc := users_autoinc s; audit_log := audit_log s |}.

Definition with_loans (s : db) (l : table loan) : db :=
  {| books := books s; members := members s; loans := l;
     settings := settings s; users := users s;
     users_autoinc := users_autoinc s; audit_log := audit_log s |}.

Definition with_settings (s : db) (m : gmap string string) : db :=
  {| books := books s; members := members s; loans := loans s;
     settings := m; users := users s;
     users_autoinc := users_autoinc s; audit_log := audit_log s |}.

Definition with_users (s : db) (u : list user) (n : Z) : db :=
  {| books := books s; members := members s; loans := loans s;
     settings := settings s; users := u;
     users_autoinc := n; audit_log := audit_log s |}.

Definition with_audit_log (s : db) (a : list audit_row) : db :=
  {| books := books s; members := members s; loans := loans s;
     settings := settings s; users := users s;
     users_autoinc := users_autoinc s; audit_log := a |}.

(** ** Outcomes *)

Inductive exn := OverflowError | IntegrityError | TypeError | ValueError.

Inductive outcome (A : Type) :=
  | Returned (a : A)
  | Raised (e : exn).
Arguments Returned {A} _.
Arguments Raised {A} _.

(** The dictionaries the operations return. *)
Record result := Result {
  success : bool;
  message : text;
  late_fee_shown : option float
}.

Definition failure (msg : string) : result :=
  {| success := false; message := [Lit msg]; late_fee_shown := None |}.

Definition done_with (msg : text) : result :=
  {| success := true; message := msg; late_fee_shown := None |}.

(** [try: c except Exception: handler], for a body that only computes. *)
Definition try_except {A} (c : outcome A) (handler : A) : A :=
  match c with
  | Returned a => a
  | Raised _ => handler
  end.

(** ** Audit and settings *)

Definition log_audit (s : db) (who what : string) (info : text)
    (now : datetime) : db :=
  with_audit_log s
    (audit_log s ++
     [{| actor := who; action := what; details := info; created_at := now |}]).

Definition get_setting (s : db) (key : string) : option string :=
  settings s !! key.

Definition set_setting (s : db) (key value : string) (who : option string)
    (now_audit : datetime) : db :=
  let s1 := with_settings s (<[key := value]> (settings s)) in
  log_audit s1 (or_unknown who) "set_setting" [Lit key; Lit "="; Lit value]
    now_audit.

(** ** Books and loans *)

Definition set_available (v : Z) (b : book) : book :=
  {| title := title b; author := author b; category := category b;
     isbn := isbn b; available := v |}.

Definition close_loan (now : datetime) (fee : float) (l : loan) : loan :=
  {| book_id := book_id l; member_id := member_id l;
     date_borrowed := date_borrowed l; date_due := date_due l;
     date_returned := Some now; late_fee := bind_real fee |}.

Definition add_book (s : db) (btitle : string)
    (bauthor bcategory bisbn who : option string) (now_audit : datetime) : db :=
  let row :=
    {| title := btitle; author := bauthor; category := bcategory;
       isbn := bisbn; available := 1 |} in
  let s1 := with_books s (insert_row row (books s)) in
  log_audit s1 (or_unknown who) "add_book" [Lit btitle] now_audit.

Definition add_member (s : db) (mname : string) (memail who : option string)
    (now_audit : datetime) : db :=
  let row := {| name := mname; email := memail |} in
  let s1 := with_members s (insert_row row (members s)) in
  log_audit s1 (or_unknown who) "add_member" [Lit mname] now_audit.

(** Is [l] an open loan of book [bid]
    ([book_id=? AND date_returned IS NULL])? *)
Definition open_on (bid : Z) (l : loan) : bool :=
  bool_decide (book_id l = bid) && bool_decide (date_returned l = None).

(** [SELECT COUNT( * ) FROM loans WHERE book_id=? AND date_returned IS NULL] *)
Definition count_open_loans (s : db) (bid : Z) : nat :=
  size (filter (λ kv, open_on bid kv.2 = true) (rows (loans s))).

(** The connection never turns [PRAGMA foreign_keys] on, so the loans that
    reference the book do not block the [DELETE]; only the count does. *)
Definition delete_book (s : db) (bid : Z) (who : option string)
    (now_audit : datetime) : result * db :=
  if bool_decide (0 < count_open_loans s bid)%nat then
    (failure "Cannot delete: book has active (not returned) loans.", s)
  else
    let shown :=
      match rows (books s) !! bid with
      | Some b => [Lit (title b)]
      | None => [Lit "id:"; Int bid]
      end in
    let s1 := with_books s (delete_row bid (books s)) in
    (done_with [Lit "Book deleted."],
     log_audit s1 (or_unknown who) "delete_book" shown now_audit).

(** The [SELECT] binds [book_id] and the [INSERT] binds [member_id]: either
    raises [OverflowError] on an integer SQLite cannot hold, and nothing
    has been written by then. *)
Definition borrow_book (s : db) (bid mid days_due : Z) (who : option string)
    (now now_audit : datetime) : outcome result * db :=
  if negb (fits_int64 bid) then (Raised OverflowError, s) else
  match rows (books s) !! bid with
  | None => (Returned (failure "Book not found."), s)
  | Some b =>
    if bool_decide (available b = 0) then
      (Returned (failure "Book currently not available."), s)
    else
      match add_days now days_due with
      | None => (Raised OverflowError, s)
      | Some due =>
        if negb (fits_int64 mid) then (Raised OverflowError, s) else
        let row :=
          {| book_id := bid; member_id := mid; date_borrowed := now;
             date_due := due; date_returned := None;
             late_fee := Some 0%float |} in
        let s1 := with_loans s (insert_row row (loans s)) in
        let s2 := with_books s1 (update_row (set_available 0) bid (books s1)) in
        let s3 :=
          log_audit s2 (or_unknown who) "borrow_book"
            [Lit "book:"; Int bid; Lit " member:"; Int mid; Lit " due:";
             Date (dt_day due)] now_audit in
        (Returned (done_with [Lit "Borrowed successfully; due on ";
                              Date (dt_day due)]), s3)
      end
  end.

(** The fee [return_book] charges for [late_days] at [rate]. *)
Definition charge (late_days : Z) (rate : float) : float :=
  if bool_decide (0 < late_days)
  then PrimFloat.mul (float_of_int late_days) rate
  else 0%float.

(** A rate that is a finite, non-negative binary64 number. *)
Definition ordinary_rate (r : float) : bool :=
  match Prim2SF r with
  | S754_zero false | S754_finite false _ _ => true
  | _ => false
  end.

Section Return.
(** [float(x)] on a string; [None] when it raises [ValueError]. *)
Variable py_float : string → option float.

(** [float(late_fee_setting)] on what [get_setting] returned: an absent
    setting is [None], on which [float] raises [TypeError]. *)
Definition float_of_setting (v : option string) : outcome float :=
  match v with
  | None => Raised TypeError
  | Some t =>
    match py_float t with
    | Some r => Returned r
    | None => Raised ValueError
    end
  end.

Definition return_book (s : db) (lid : Z) (who : option string)
    (now now_audit : datetime) : outcome result * db :=
  match rows (loans s) !! lid with
  | None => (Returned (failure "Loan not found."), s)
  | Some l =>
    match date_returned l with
    | Some _ => (Returned (failure "Already returned."), s)
    | None =>
      let late_fee_setting := get_setting s "late_fee_per_day" in
      let late_fee_per_day :=
        try_except (float_of_setting late_fee_setting) 0.5%float in
      let late_days := days_between now (date_due l) in
      let fee := charge late_days late_fee_per_day in
      let s1 := with_loans s (update_row (close_loan now fee) lid (loans s)) in
      let s2 :=
        with_books s1 (update_row (set_available 1) (book_id l) (books s1)) in
      let s3 :=
        log_audit s2 (or_unknown who) "return_book"
          [Lit "loan:"; Int lid; Lit " late_fee:"; Flt fee] now_audit in
      (Returned {| success := true;
                   message := [Lit "Returned. Late fee: "; Flt2 fee];
                   late_fee_shown := Some fee |}, s3)
    end
  end.
End Return.

(** ** Users *)

(** [SELECT * FROM users WHERE username=?] followed by [fetchone()]. *)
Definition fetch_user (s : db) (uname : string) : option user :=
  snd <$> list_find (λ u, username u = uname) (users s).

Definition set_password_hash (h : string) (u : user) : user :=
  {| user_id := user_id u; username := username u; password_hash := h;
     role := role u |}.

(** [UPDATE users SET password_hash=? WHERE username=?] *)
Definition update_password_hash (s : db) (uname h : string) : db :=
  with_users s
    (map (λ u, if decide (username u = uname) then set_password_hash h u else u)
       (users s))
    (users_autoinc s).

(** The id an insert into [users] assigns. *)
Definition next_user_id (s : db) : Z :=
  1 + Z.max (users_autoinc s) (foldr Z.max 0 (user_id <$> users s)).

(** [SELECT COUNT( * ) FROM users] is positive. *)
Definition any_user_exists (s : db) : bool :=
  bool_decide (0 < length (users s))%nat.

(** [INSERT OR IGNORE INTO settings (key, value)] *)
Definition insert_or_ignore (key value : string) (m : gmap string string)
    : gmap string string :=
  match m !! key with
  | Some _ => m
  | None => <[key := value]> m
  end.

Section Auth.
(** [bcrypt.hashpw(password.encode("utf-8"), salt)], on the password and
    the salt that [bcrypt.gensalt()] drew.  It raises on a password bcrypt
    refuses: [ValueError] for one of more than 72 bytes, since bcrypt 5. *)
Variable hashpw : string → string → outcome string.
(** [bcrypt.checkpw(password, hashed)], which may raise on a malformed
    stored hash. *)
Variable checkpw : string → string → outcome bool.

Definition create_user (s : db) (uname password_plain urole salt : string)
    (now_audit : datetime) : outcome unit * db :=
  match hashpw password_plain salt with
  | Raised e => (Raised e, s)
  | Returned hashed =>
    match fetch_user s uname with
    | Some _ => (Raised IntegrityError, s)    (* username is UNIQUE *)
    | None =>
      let i := next_user_id s in
      let row :=
        {| user_id := i; username := uname; password_hash := hashed;
           role := urole |} in
      let s1 := with_users s (users s ++ [row]) i in
      (Returned (),
       log_audit s1 uname "create_user"
         [Lit "created user '"; Lit uname; Lit "' with role '"; Lit urole;
          Lit "'"] now_audit)
    end
  end.

Definition create_default_admin_if_missing (s : db) (salt : string)
    (now_audit now_audit' : datetime) : outcome unit * db :=
  if negb (any_user_exists s) then
    match create_user s "admin" "admin" "admin" salt now_audit with
    | (Returned _, s1) =>
      (Returned (),
       log_audit s1 "system" "create_default_admin"
         [Lit "created default admin user 'admin'"] now_audit')
    | (Raised e, s1) => (Raised e, s1)
    end
  else (Returned (), s).

(** [init_db] on a store whose tables exist: seed the settings that are
    missing, then make sure there is a user. *)
Definition init_db (s : db) (salt : string)
    (now_audit now_audit' : datetime) : outcome unit * db :=
  let seeded :=
    insert_or_ignore "smtp_password" ""
      (insert_or_ignore "smtp_user" ""
         (insert_or_ignore "smtp_port" "587"
            (insert_or_ignore "smtp_host" ""
               (insert_or_ignore "late_fee_per_day" "0.50" (settings s))))) in
  create_default_admin_if_missing (with_settings s seeded) salt now_audit
    now_audit'.

Definition verify_user (s : db) (uname password_plain : string) : bool :=
  match fetch_user s uname with
  | None => false
  | Some row =>
    let hashed := password_hash row in
    try_except (checkpw password_plain hashed) false
  end.

Definition change_user_password (s : db)
    (uname old_password_plain new_password_plain salt : string)
    (now_audit : datetime) : outcome result * db :=
  if negb (verify_user s uname old_password_plain) then
    (Returned (failure "Current password incorrect."), s)
  else
    match hashpw new_password_plain salt with
    | Raised e => (Raised e, s)
    | Returned hashed =>
      let s1 := update_password_hash s uname hashed in
      (Returned (done_with [Lit "Password changed."]),
       log_audit s1 uname "change_password"
         [Lit "user '"; Lit uname; Lit "' changed their password"] now_audit)
    end.

End Auth.

(** ** Sequences of borrow and return calls *)

Inductive call :=
  | Borrow (bid mid days_due : Z) (who : option string)
      (now now_audit : datetime)
  | Return (lid : Z) (who : option string) (now now_audit : datetime).

Section Run.
Variable py_float : string → option float.

Definition step (s : db) (c : call) : db :=
  match c with
  | Borrow bid mid days_due who now now_audit =>
    (borrow_book s bid mid days_due who now now_audit).2
  | Return lid who now now_audit =>
    (return_book py_float s lid who now now_audit).2
  end.

Definition run (s : db) (cs : list call) : db := foldl step s cs.
End Run.

(** ** The availability invariant *)

(** Loan [lid] is an open loan of book [bid]. *)
Definition open_loan (s : db) (bid lid : Z) : Prop :=
  ∃ l, rows (loans s) !! lid = Some l ∧ book_id l = bid ∧
       date_returned l = None.

(** A book is flagged unavailable exactly when an open loan references it,
    and no book has two open loans. *)
Definition availability_invariant (s : db) : Prop :=
  (∀ bid b, rows (books s) !! bid = Some b →
     (available b = 0 ↔ ∃ lid, open_loan s bid lid)) ∧
  (∀ bid lid1 lid2, open_loan s bid lid1 → open_loan s bid lid2 →
     lid1 = lid2).

(** ** One more audit row *)


(** ** Concrete library functions and states for the examples *)

Fixpoint digits_value (acc : Z) (cs : list ascii) : option Z :=
  match cs with
  | [] => Some acc
  | c :: cs' =>
    let n := Z.of_nat (nat_of_ascii c) in
    if bool_decide (48 ≤ n ≤ 57) then digits_value (10 * acc + (n - 48)) cs'
    else None
  end.

Fixpoint split_at_dot (cs : list ascii) : list ascii * option (list ascii) :=
  match cs with
  | [] => ([], None)
  | c :: cs' =>
    if decide (c = "."%char) then ([], Some cs')
    else let '(a, b) := split_at_dot cs' in (c :: a, b)
  end.

(** A reader of unsigned decimal literals such as ["0.50"], with which the
    examples instantiate [float]: at most 15 digits after the point and
    digits that make a number below [2^53].  The digits and the power of
    ten are then both exact as binary64 numbers, so their quotient, rounded
    once, is the float nearest to the literal, which is what [float]
    returns on it.  No other string is read. *)
Definition decimal_literal (t : string) : option float :=
  match split_at_dot (String.list_ascii_of_string t) with
  | (ip, Some fp) =>
    match ip, fp, digits_value 0 (ip ++ fp) with
    | _ :: _, _ :: _, Some n =>
      let k := Z.of_nat (length fp) in
      if bool_decide (n < 2 ^ 53 ∧ k ≤ 15)
      then Some (PrimFloat.div (float_of_int n) (float_of_int (10 ^ k)))
      else None
    | _, _, _ => None
    end
  | (_, None) => None
  end.

(** A stand-in for bcrypt in the examples (it hides nothing): the hash is
    the two-character salt followed by the password, and a password of
    more than 72 bytes is refused with [ValueError], as bcrypt 5 does. *)
Definition plain_hashpw (password salt : string) : outcome string :=
  if bool_decide (72 < String.length password)%nat then Raised ValueError
  else Returned (salt ++ password).

Definition plain_checkpw (password hashed : string) : outcome bool :=
  if bool_decide (72 < String.length password)%nat then Raised ValueError
  else
    Returned
      (bool_decide
         (String.substring 2 (String.length hashed - 2) hashed = password)).

(** A password of 73 bytes, one more than bcrypt takes. *)
Definition long_password : string := String.concat "" (replicate 73 "x").

Definition noon (day : Z) : datetime :=
  {| dt_day := day; dt_micro := 43200000000 |}.

Definition empty_table {A} : table A := {| rows := ∅; autoinc := 0 |}.

(** The store right after the tables were created. *)
Definition empty_db : db :=
  {| books := empty_table; members := empty_table; loans := empty_table;
     settings := ∅; users := []; users_autoinc := 0; audit_log := [] |}.

(** The store after the first [init_db]: default settings and the default
    admin. *)
Definition fresh_db : db :=
  (init_db plain_hashpw empty_db "s1" (noon 738000) (noon 738000)).2.

(** [fresh_db] with one book on the shelf and one member. *)
Definition one_book_db : db :=
  add_member
    (add_book fresh_db "Dune" (Some "Herbert") None None (Some "admin")
       (noon 738000))
    "Ada" None (Some "admin") (noon 738000).

(** [one_book_db] after member 1 borrowed book 1 on day 738000 for 14 days. *)
Definition lent_db : db :=
  (borrow_book one_book_db 1 1 14 (Some "admin") (noon 738000) (noon 738000)).2.

(** The loan row that call inserted, under id 1. *)
Definition first_loan : loan :=
  {| book_id := 1; member_id := 1; date_borrowed := noon 738000;
     date_due := noon 738014; date_returned := None;
     late_fee := Some 0%float |}.

(** [lent_db] with the rate set to 0.75 a day. *)
Definition lent_db_075 : db :=
  set_setting lent_db "late_fee_per_day" "0.75" (Some "admin") (noon 738001).



(** [lent_db] after the book came back ten days late. *)
Definition returned_db : db :=
  (return_book decimal_literal lent_db 1 (Some "admin") (noon 738024)
     (noon 738024)).2.

(** ** The rest of the module: users, books, members *)

(** [SELECT role FROM users WHERE username=?]; [None] for an unknown user. *)
Definition get_user_role (s : db) (uname : string) : option string :=
  role <$> fetch_user s uname.

(** [SELECT * FROM books WHERE id=?] *)
Definition get_book (s : db) (bid : Z) : option book :=
  rows (books s) !! bid.

(** [SELECT * FROM members WHERE id=?] *)
Definition get_member (s : db) (mid : Z) : option member :=
  rows (members s) !! mid.

(** [UPDATE books SET title=?, author=?, category=?, isbn=?, available=?
    WHERE id=?], with [1 if available else 0] for the flag. *)
Definition update_book (s : db) (bid : Z) (btitle : string)
    (bauthor bcategory bisbn : option string) (bavailable : bool)
    (who : option string) (now_audit : datetime) : db :=
  let row :=
    {| title := btitle; author := bauthor; category := bcategory;
       isbn := bisbn; available := if bavailable then 1 else 0 |} in
  let s1 := with_books s (update_row (λ _, row) bid (books s)) in
  log_audit s1 (or_unknown who) "update_book"
    [Int bid; Lit " -> "; Lit btitle] now_audit.

(** The usernames of the [users] table are pairwise distinct, as its
    [UNIQUE] constraint demands. *)
Definition unique_usernames (s : db) : Prop :=
  NoDup (username <$> users s).

(** The five [INSERT OR IGNORE INTO settings] statements of [init_db]. *)
Definition seed_settings (m : gmap string string) : gmap string string :=
  insert_or_ignore "smtp_password" ""
    (insert_or_ignore "smtp_user" ""
       (insert_or_ignore "smtp_port" "587"
          (insert_or_ignore "smtp_host" ""
             (insert_or_ignore "late_fee_per_day" "0.50" m)))).

(** ** Facts about tables *)

Lemma max_rowid_ge {A} (m : gmap Z A) k x :
  m !! k = Some x → k ≤ max_rowid m.
Proof.
  unfold max_rowid. revert k x.
  apply (map_fold_weak_ind (λ r m, ∀ k x, m !! k = Some x → k ≤ r)).
  - intros k x. by rewrite lookup_empty.
  - intros i y m' r _ IH k x.
    rewrite lookup_insert. case_decide.
    + intros _. subst. lia.
    + intros Hk. specialize (IH _ _ Hk). lia.
Qed.

Lemma next_rowid_fresh {A} (t : table A) : rows t !! next_rowid t = None.
Proof.
  destruct (rows t !! next_rowid t) as [x|] eqn:E; [|done].
  apply max_rowid_ge in E. unfold next_rowid in E. lia.
Qed.

Example decimal_literal_050 : decimal_literal "0.50" = Some 0.5%float.
Proof. reflexivity. Qed.

Example decimal_literal_075 : decimal_literal "0.75" = Some 0.75%float.
Proof. reflexivity. Qed.

Example decimal_literal_rejects : decimal_literal "half" = None.
Proof. reflexivity. Qed.

(** ** Open loans across a borrow and a return *)

Lemma open_loan_insert_row s s' bid mid now due b lid :
  loans s' = insert_row
    {| book_id := bid; member_id := mid; date_borrowed := now;
       date_due := due; date_returned := None; late_fee := Some 0%float |}
    (loans s) →
  open_loan s' b lid ↔
  open_loan s b lid ∨ (b = bid ∧ lid = next_rowid (loans s)).
Proof.
  intros Hl. unfold open_loan. rewrite Hl. simpl.
  pose proof (next_rowid_fresh (loans s)) as Hfresh.
  split.
  - intros (l & Hlk & Hb & Hr).
    rewrite lookup_insert in Hlk. case_decide.
    + right. by simplify_eq/=.
    + left. eauto.
  - intros [(l & Hlk & Hb & Hr) | [-> ->]].
    + exists l. rewrite lookup_insert_ne; [done|].
      intros <-. congruence.
    + eexists. rewrite lookup_insert_eq. done.
Qed.

Lemma open_loan_close s s' lid l now fee b lid' :
  rows (loans s) !! lid = Some l →
  loans s' = update_row (close_loan now fee) lid (loans s) →
  open_loan s' b lid' ↔ open_loan s b lid' ∧ lid' ≠ lid.
Proof.
  intros Hlid Hl. unfold open_loan. rewrite Hl. simpl.
  split.
  - intros (l' & Hlk & Hb & Hr).
    rewrite lookup_alter in Hlk. case_decide.
    + subst. rewrite Hlid in Hlk. by simplify_eq/=.
    + eauto.
  - intros [(l' & Hlk & Hb & Hr) Hne].
    exists l'. rewrite lookup_alter_ne; done.
Qed.

Lemma borrow_book_invariant s bid mid days_due who now now_audit :
  availability_invariant s →
  availability_invariant (borrow_book s bid mid days_due who now now_audit).2.
Proof.
  intros [Hflag Huniq]. unfold borrow_book.
  destruct (fits_int64 bid); [|done]. cbn [negb].
  destruct (rows (books s) !! bid) as [b0|] eqn:Hb0; [|done].
  case_bool_decide as Hav; [done|].
  destruct (add_days now days_due) as [due|]; [|done].
  destruct (fits_int64 mid); [|done].
  cbn [negb snd].
  match goal with |- availability_invariant ?t => set (s' := t) end.
  assert (Hopen : ∀ b lid, open_loan s' b lid ↔
            open_loan s b lid ∨ (b = bid ∧ lid = next_rowid (loans s)))
    by (intros; by eapply open_loan_insert_row).
  assert (Hnone : ∀ lid, ¬ open_loan s bid lid).
  { intros lid Ho. apply Hav, (Hflag _ _ Hb0). eauto. }
  split.
  - intros b' bk Hbk. subst s'. cbn in Hbk.
    rewrite lookup_alter in Hbk. case_decide as Hd.
    + subst b'. rewrite Hb0 in Hbk. simplify_eq/=.
      split; [|done]. intros _. eexists. apply Hopen. by right.
    + rewrite (Hflag _ _ Hbk). split.
      * intros [lid Ho]. exists lid. apply Hopen. by left.
      * intros [lid [Ho | [-> _]]%Hopen]; [eauto | done].
  - intros b' l1 l2 [H1 | [-> ->]]%Hopen [H2 | [E ->]]%Hopen.
    + eauto.
    + subst b'. by destruct (Hnone l1).
    + by destruct (Hnone l2).
    + done.
Qed.

Section ReturnInvariant.
Variable py_float : string → option float.

Lemma return_book_invariant s lid who now now_audit :
  availability_invariant s →
  availability_invariant (return_book py_float s lid who now now_audit).2.
Proof.
  intros [Hflag Huniq]. unfold return_book.
  destruct (rows (loans s) !! lid) as [l|] eqn:Hl; [|done].
  destruct (date_returned l) eqn:Hret; [done|].
  cbn [snd].
  match goal with |- availability_invariant ?t => set (s' := t) end.
  assert (Hopen : ∀ b lid', open_loan s' b lid' ↔
            open_loan s b lid' ∧ lid' ≠ lid)
    by (intros; by eapply open_loan_close).
  assert (Hmine : open_loan s (book_id l) lid) by (exists l; done).
  split.
  - intros b' bk Hbk. subst s'. cbn in Hbk.
    rewrite lookup_alter in Hbk. case_decide as Hd.
    + subst b'. destruct (rows (books s) !! book_id l); simplify_eq/=.
      split; [done|]. intros [lid' [Ho Hne]%Hopen].
      destruct Hne. eauto.
    + rewrite (Hflag _ _ Hbk). split.
      * intros [lid' Ho]. exists lid'. apply Hopen. split; [done|].
        intros ->. destruct Hd.
        destruct Ho as (l' & Hl' & Hb' & _). congruence.
      * intros [lid' [Ho _]%Hopen]. eauto.
  - intros b' l1 l2 [H1 _]%Hopen [H2 _]%Hopen. eauto.
Qed.

Lemma step_invariant s c :
  availability_invariant s → availability_invariant (step py_float s c).
Proof.
  destruct c; simpl.
  - apply borrow_book_invariant.
  - apply return_book_invariant.
Qed.
End ReturnInvariant.

Example fresh_db_contents :
  settings fresh_db !! "late_fee_per_day" = Some "0.50" ∧
  username <$> users fresh_db = ["admin"] ∧
  actor <$> audit_log fresh_db = ["admin"; "system"].
Proof. vm_compute. done. Qed.

Example one_book_db_tables :
  rows (books one_book_db) =
    {[ 1 := {| title := "Dune"; author := Some "Herbert"; category := None;
               isbn := None; available := 1 |} ]} ∧
  rows (loans one_book_db) = ∅.
Proof. split; reflexivity. Qed.

Example lent_db_loan : rows (loans lent_db) !! 1 = Some first_loan.
Proof. reflexivity. Qed.

Lemma one_book_db_invariant : availability_invariant one_book_db.
Proof.
  destruct one_book_db_tables as [Hbooks Hloans].
  split.
  - intros bid b Hb. rewrite Hbooks in Hb.
    apply lookup_singleton_Some in Hb as [<- <-]. cbn. split; [done|].
    intros (lid & l & Hl & _). rewrite Hloans in Hl.
    by rewrite lookup_empty in Hl.
  - intros bid l1 l2 (l & Hl & _). rewrite Hloans in Hl.
    by rewrite lookup_empty in Hl.
Qed.

(** C1. Starting from a store in which a book is flagged unavailable
    exactly when an open loan references it and no book has two open
    loans, the same holds after every sequence of [borrow_book] and
    [return_book] calls, whatever their arguments and outcomes. *)
Theorem availability_invariant_run py_float (cs : list call) (s : db) :
  availability_invariant s → availability_invariant (run py_float s cs).
Proof.
  revert s. induction cs as [|c cs IH]; intros s Hs; [done|].
  cbn. apply IH. by apply step_invariant.
Qed.

Lemma availability_invariant_run_witness :
  availability_invariant
    (run decimal_literal one_book_db
       [Borrow 1 1 14 (Some "admin") (noon 738000) (noon 738000);
        Borrow 1 1 7 None (noon 738001) (noon 738001);
        Return 1 (Some "admin") (noon 738024) (noon 738024);
        Return 1 (Some "admin") (noon 738025) (noon 738025);
        Borrow 1 1 14 (Some "admin") (noon 738030) (noon 738030)]).
Proof.
  apply (availability_invariant_run decimal_literal).
  exact one_book_db_invariant.
Defined.

Example run_flags :
  let s := run decimal_literal one_book_db
             [Borrow 1 1 14 (Some "admin") (noon 738000) (noon 738000);
              Borrow 1 1 7 None (noon 738001) (noon 738001)] in
  available <$> rows (books s) !! 1 = Some 0 ∧
  count_open_loans s 1 = 1%nat ∧ size (rows (loans s)) = 1%nat.
Proof. vm_compute. done. Qed.

Example run_flags_returned :
  let s := run decimal_literal one_book_db
             [Borrow 1 1 14 (Some "admin") (noon 738000) (noon 738000);
              Return 1 (Some "admin") (noon 738024) (noon 738024)] in
  available <$> rows (books s) !! 1 = Some 1 ∧
  count_open_loans s 1 = 0%nat ∧
  rows (loans s) !! 1 ≫= late_fee = Some 5%float.
Proof. vm_compute. done. Qed.

(** ** Refused calls *)

(** C5. For a book id that SQLite can hold (a signed 64-bit integer):
    borrowing a book whose [available] flag is 0 is refused with the
    not-available result whatever the member, and borrowing an id that no
    book row carries is refused with the not-found result.  A book id
    outside that range is not looked up at all: binding it raises
    [OverflowError].  In all three cases the store is left as it was, so
    no loan row is inserted and no book row changes. *)
Theorem borrow_book_refused s bid mid days_due who now now_audit :
  (fits_int64 bid = true →
     (∀ b, rows (books s) !! bid = Some b → available b = 0 →
        borrow_book s bid mid days_due who now now_audit =
        (Returned (failure "Book currently not available."), s)) ∧
     (rows (books s) !! bid = None →
        borrow_book s bid mid days_due who now now_audit =
        (Returned (failure "Book not found."), s))) ∧
  (fits_int64 bid = false →
     borrow_book s bid mid days_due who now now_audit =
     (Raised OverflowError, s)).
Proof.
  unfold borrow_book. split.
  - intros ->. cbn [negb]. split.
    + intros b -> Hb. by rewrite bool_decide_eq_true_2.
    + by intros ->.
  - by intros ->.
Qed.

Lemma borrow_book_refused_witness :
  borrow_book lent_db 1 9 14 (Some "admin") (noon 738002) (noon 738002) =
    (Returned (failure "Book currently not available."), lent_db) ∧
  borrow_book lent_db 2 1 14 (Some "admin") (noon 738002) (noon 738002) =
    (Returned (failure "Book not found."), lent_db) ∧
  borrow_book lent_db (2 ^ 63) 1 14 (Some "admin") (noon 738002)
    (noon 738002) =
    (Raised OverflowError, lent_db).
Proof.
  split_and!.
  - eapply (proj1 (proj1 (borrow_book_refused lent_db 1 9 14 (Some "admin")
                            (noon 738002) (noon 738002)) eq_refl));
      reflexivity.
  - apply (proj2 (proj1 (borrow_book_refused lent_db 2 1 14 (Some "admin")
                           (noon 738002) (noon 738002)) eq_refl)).
    reflexivity.
  - apply (proj2 (borrow_book_refused lent_db (2 ^ 63) 1 14 (Some "admin")
                    (noon 738002) (noon 738002))).
    reflexivity.
Defined.

(** C4. Returning a loan whose [date_returned] is already set is refused
    with the already-returned result and leaves the whole store, hence the
    loan's [late_fee] and [date_returned], as it was. *)
Theorem return_book_already_returned py_float s lid l t who now now_audit :
  rows (loans s) !! lid = Some l →
  date_returned l = Some t →
  return_book py_float s lid who now now_audit =
  (Returned (failure "Already returned."), s).
Proof. unfold return_book. by intros -> ->. Qed.

Lemma return_book_already_returned_witness :
  return_book decimal_literal returned_db 1 (Some "admin") (noon 738030)
    (noon 738030) =
  (Returned (failure "Already returned."), returned_db).
Proof.
  eapply (return_book_already_returned decimal_literal returned_db 1);
    reflexivity.
Defined.

(** A second [return_book] right after a successful one is refused. *)
Lemma return_book_second_call py_float s lid l who now now_audit who' now'
    now_audit' :
  rows (loans s) !! lid = Some l →
  date_returned l = None →
  let s' := (return_book py_float s lid who now now_audit).2 in
  return_book py_float s' lid who' now' now_audit' =
  (Returned (failure "Already returned."), s').
Proof.
  intros Hl Hopen s'.
  assert (rows (loans s') !! lid = Some (close_loan now
            (charge (days_between now (date_due l))
               (try_except
                  (float_of_setting py_float
                     (get_setting s "late_fee_per_day")) 0.5%float)) l))
    as Hclosed.
  { subst s'. unfold return_book. rewrite Hl, Hopen. cbn.
    by rewrite lookup_alter_eq, Hl. }
  unfold return_book at 1. by rewrite Hclosed.
Qed.

(** ** Deleting a book *)

Lemma count_open_loans_pos s bid :
  (0 < count_open_loans s bid)%nat ↔ ∃ lid, open_loan s bid lid.
Proof.
  unfold count_open_loans, open_loan, open_on.
  split.
  - intros Hpos.
    destruct (map_size_ne_0_lookup_1
      (filter (λ kv : Z * loan,
         bool_decide (book_id kv.2 = bid) &&
         bool_decide (date_returned kv.2 = None) = true)
         (rows (loans s)))) as [lid [l Hl]]; [lia|].
    apply map_lookup_filter_Some in Hl as [Hl HP]. cbn in HP.
    apply andb_true_iff in HP as [?%bool_decide_eq_true ?%bool_decide_eq_true].
    eauto.
  - intros (lid & l & Hl & Hb & Hr).
    enough (size (filter (λ kv : Z * loan,
         bool_decide (book_id kv.2 = bid) &&
         bool_decide (date_returned kv.2 = None) = true)
         (rows (loans s))) ≠ 0%nat) by lia.
    apply (map_size_ne_0_lookup_2 _ lid). exists l.
    apply map_lookup_filter_Some. split; [done|]. cbn.
    by rewrite !bool_decide_eq_true_2.
Qed.

(** C8. [delete_book] on a book referenced by an open loan is refused with
    a result whose [success] is false and leaves the store, hence the book
    row, as it was; on a book with no open loan (no loan at all, or only
    returned ones) it succeeds and the book row is gone. *)
Theorem delete_book_spec s bid who now_audit :
  ((∃ lid, open_loan s bid lid) →
     delete_book s bid who now_audit =
     (failure "Cannot delete: book has active (not returned) loans.", s)) ∧
  ((∀ lid l, rows (loans s) !! lid = Some l → book_id l = bid →
             is_Some (date_returned l)) →
     (delete_book s bid who now_audit).1 = done_with [Lit "Book deleted."] ∧
     rows (books (delete_book s bid who now_audit).2) !! bid = None ∧
     ∀ bid', bid' ≠ bid →
       rows (books (delete_book s bid who now_audit).2) !! bid' =
       rows (books s) !! bid').
Proof.
  unfold delete_book. split.
  - intros Ho%count_open_loans_pos. by rewrite bool_decide_eq_true_2.
  - intros Hclosed. rewrite bool_decide_eq_false_2.
    + cbn. split; [done|]. split; [apply lookup_delete_eq|].
      intros bid' Hne. by rewrite lookup_delete_ne.
    + intros (lid & l & Hl & Hb & Hr)%count_open_loans_pos.
      destruct (Hclosed _ _ Hl Hb) as [t Ht]. congruence.
Qed.

Lemma delete_book_spec_witness :
  delete_book lent_db 1 (Some "admin") (noon 738003) =
    (failure "Cannot delete: book has active (not returned) loans.", lent_db) ∧
  (delete_book returned_db 1 (Some "admin") (noon 738030)).1 =
    done_with [Lit "Book deleted."] ∧
  rows (books (delete_book returned_db 1 (Some "admin") (noon 738030)).2) !! 1
    = None.
Proof.
  split.
  - apply (proj1 (delete_book_spec lent_db 1 (Some "admin") (noon 738003))).
    exists 1. eexists. split; [reflexivity|]. split; reflexivity.
  - assert (Hclosed : ∀ lid l, rows (loans returned_db) !! lid = Some l →
              book_id l = 1 → is_Some (date_returned l)).
    { intros lid l Hl _. vm_compute in Hl.
      destruct lid as [|[| |]|]; simplify_eq. by eexists. }
    destruct (proj2 (delete_book_spec returned_db 1 (Some "admin")
                       (noon 738030)) Hclosed) as (H1 & H2 & _).
    split; [exact H1 | exact H2].
Defined.

(** ** Users and passwords *)

Lemma fetch_user_None s uname :
  fetch_user s uname = None ↔ Forall (λ u, username u ≠ uname) (users s).
Proof.
  unfold fetch_user. rewrite fmap_None. apply list_find_None.
Qed.

Lemma fetch_user_username s uname row :
  fetch_user s uname = Some row → row ∈ users s ∧ username row = uname.
Proof.
  unfold fetch_user. intros ([i u] & Hfind & ->)%fmap_Some.
  apply list_find_Some in Hfind as (Hi & Hu & _).
  split; [by eapply list_elem_of_lookup_2 | done].
Qed.

Lemma fetch_user_log_audit s who what info now uname :
  fetch_user (log_audit s who what info now) uname = fetch_user s uname.
Proof. reflexivity. Qed.

Lemma fetch_user_update s uname h who :
  fetch_user (update_password_hash s uname h) who =
  (λ u, if decide (username u = uname) then set_password_hash h u else u)
    <$> fetch_user s who.
Proof.
  unfold fetch_user, update_password_hash. cbn.
  change (map ?f (users s)) with (f <$> users s).
  rewrite list_find_fmap.
  rewrite (list_find_ext _ (λ u, username u = who)).
  - by destruct (list_find _ (users s)) as [[i u]|].
  - intros u. cbn. by case_decide.
Qed.


Section AuthFacts.
Variable hashpw : string → string → outcome string.
Variable checkpw : string → string → outcome bool.

(** C6. [verify_user] returns the boolean [false] when no row of [users]
    has the username, and also when the row exists and [bcrypt.checkpw]
    does not accept the password for the stored hash (it returns [False]
    or raises): one return shape, no error, in both cases. *)
Theorem verify_user_rejects s uname password_plain :
  (Forall (λ u, username u ≠ uname) (users s) →
     verify_user checkpw s uname password_plain = false) ∧
  (∀ row, fetch_user s uname = Some row →
     checkpw password_plain (password_hash row) ≠ Returned true →
     verify_user checkpw s uname password_plain = false).
Proof.
  unfold verify_user. split.
  - intros Hno%fetch_user_None. by rewrite Hno.
  - intros row -> Hbad.
    destruct (checkpw password_plain (password_hash row)) as [[]|];
      cbn; congruence.
Qed.

(** C7. [change_user_password] with an old password that [verify_user]
    rejects returns [success = False] and leaves the whole store as it
    was (no audit row is written either).  With an old password that
    verifies, and a new password that [bcrypt.hashpw] hashes to [h], it
    returns [success = True] and the user's row then holds [h] as its
    [password_hash], its other columns being as before.  With an old
    password that verifies and a new password on which [bcrypt.hashpw]
    raises, the call raises the same exception and the store is as it
    was. *)
Theorem change_user_password_spec s uname old_plain new_plain salt
    now_audit :
  (verify_user checkpw s uname old_plain = false →
     change_user_password hashpw checkpw s uname old_plain new_plain salt
       now_audit =
     (Returned (failure "Current password incorrect."), s)) ∧
  (∀ h,
     verify_user checkpw s uname old_plain = true →
     hashpw new_plain salt = Returned h →
     ∃ row row',
       fetch_user s uname = Some row ∧
       (change_user_password hashpw checkpw s uname old_plain new_plain
          salt now_audit).1 = Returned (done_with [Lit "Password changed."]) ∧
       fetch_user
         (change_user_password hashpw checkpw s uname old_plain new_plain
            salt now_audit).2 uname = Some row' ∧
       password_hash row' = h ∧
       username row' = uname ∧
       user_id row' = user_id row ∧
       role row' = role row) ∧
  (∀ e,
     verify_user checkpw s uname old_plain = true →
     hashpw new_plain salt = Raised e →
     change_user_password hashpw checkpw s uname old_plain new_plain salt
       now_audit = (Raised e, s)).
Proof.
  unfold change_user_password. split_and!.
  - by intros ->.
  - intros h Hok Hh. rewrite Hok, Hh. cbn [negb fst snd].
    unfold verify_user in Hok.
    destruct (fetch_user s uname) as [row|] eqn:Hrow; [|done].
    exists row, (set_password_hash h row). split; [done|]. split; [done|].
    apply fetch_user_username in Hrow as Hname. destruct Hname as [_ Hname].
    split_and!; [|done..].
    rewrite fetch_user_log_audit, fetch_user_update, Hrow. cbn.
    by rewrite decide_True.
  - intros e Hok Hh. by rewrite Hok, Hh.
Qed.

End AuthFacts.

Lemma verify_user_rejects_witness :
  verify_user plain_checkpw fresh_db "nobody" "admin" = false ∧
  verify_user plain_checkpw fresh_db "admin" "guess" = false.
Proof.
  split.
  - apply (proj1 (verify_user_rejects plain_checkpw fresh_db "nobody" "admin")).
    repeat constructor. cbn. discriminate.
  - eapply (proj2 (verify_user_rejects plain_checkpw fresh_db "admin" "guess"));
      [reflexivity | cbn; discriminate].
Defined.

Lemma change_user_password_spec_witness :
  change_user_password plain_hashpw plain_checkpw fresh_db "admin" "guess"
    "s3cret" "s2" (noon 738001) =
    (Returned (failure "Current password incorrect."), fresh_db) ∧
  (∃ row row',
    fetch_user fresh_db "admin" = Some row ∧
    (change_user_password plain_hashpw plain_checkpw fresh_db "admin" "admin"
       "s3cret" "s2" (noon 738001)).1 =
      Returned (done_with [Lit "Password changed."]) ∧
    fetch_user
      (change_user_password plain_hashpw plain_checkpw fresh_db "admin"
         "admin" "s3cret" "s2" (noon 738001)).2 "admin" = Some row' ∧
    password_hash row' = "s2s3cret" ∧
    username row' = "admin" ∧
    user_id row' = user_id row ∧
    role row' = role row) ∧
  change_user_password plain_hashpw plain_checkpw fresh_db "admin" "admin"
    long_password "s2" (noon 738001) =
    (Raised ValueError, fresh_db).
Proof.
  split_and!.
  - apply (proj1 (change_user_password_spec plain_hashpw plain_checkpw
                    fresh_db "admin" "guess" "s3cret" "s2" (noon 738001))).
    reflexivity.
  - apply (proj1 (proj2 (change_user_password_spec plain_hashpw plain_checkpw
                    fresh_db "admin" "admin" "s3cret" "s2" (noon 738001))));
      reflexivity.
  - apply (proj2 (proj2 (change_user_password_spec plain_hashpw plain_checkpw
                    fresh_db "admin" "admin"
                    long_password "s2"
                    (noon 738001))));
      reflexivity.
Defined.


(** ** The late fee *)

Lemma mul_zero_ordinary r :
  ordinary_rate r = true → PrimFloat.mul 0 r = 0%float.
Proof.
  unfold ordinary_rate. intros Hr.
  apply Prim2SF_inj. rewrite mul_spec.
  destruct (Prim2SF r) as [[]|[]| |[] m e]; try discriminate; reflexivity.
Qed.

(** For a finite, non-negative rate the fee is the product of the days
    late, cut off at zero, and the rate, as binary64 numbers. *)
Lemma charge_max late_days rate :
  ordinary_rate rate = true →
  charge late_days rate =
  PrimFloat.mul (float_of_int (Z.max 0 late_days)) rate.
Proof.
  intros Hr. unfold charge. case_bool_decide.
  - by rewrite Z.max_r by lia.
  - rewrite Z.max_l by lia. by rewrite mul_zero_ordinary.
Qed.

Example charge_on_time : charge 0 0.5 = 0%float.
Proof. reflexivity. Qed.

Example charge_early : charge (-3) 0.5 = 0%float.
Proof. reflexivity. Qed.

Example charge_one_day : charge 1 0.5 = 0.5%float.
Proof. reflexivity. Qed.

Example charge_ten_days : charge 10 0.75 = 7.5%float.
Proof. reflexivity. Qed.

Section LateFee.
Variable py_float : string → option float.

(** What a successful [return_book] leaves and returns, given the rate
    the [try] block settled on. *)
Lemma return_book_open s lid l who now now_audit :
  rows (loans s) !! lid = Some l →
  date_returned l = None →
  let rate :=
    try_except
      (float_of_setting py_float (get_setting s "late_fee_per_day"))
      0.5%float in
  let fee := charge (days_between now (date_due l)) rate in
  ∃ s',
    return_book py_float s lid who now now_audit =
      (Returned {| success := true;
                   message := [Lit "Returned. Late fee: "; Flt2 fee];
                   late_fee_shown := Some fee |}, s') ∧
    rows (loans s') !! lid = Some (close_loan now fee l) ∧
    audit_log s' =
      (audit_log s ++
       [{| actor := or_unknown who; action := "return_book";
           details := [Lit "loan:"; Int lid; Lit " late_fee:"; Flt fee];
           created_at := now_audit |}])%list.
Proof.
  intros Hl Hopen rate fee. unfold return_book. rewrite Hl, Hopen.
  eexists. split; [reflexivity|]. cbn. split; [|done].
  by rewrite lookup_alter_eq, Hl.
Qed.

(** C2. When an open loan is returned and the [late_fee_per_day] setting
    read at that moment parses to [rate], the loan row stores as
    [late_fee] the number of calendar days between the due date and the
    return date times [rate] when the return is late, and 0 when it is
    not; for a finite non-negative rate this is [max(0, days) * rate] as
    Python computes it.  In particular the fee is 0 on the due date, 0.50
    one day late at rate 0.50, and 7.50 ten days late at rate 0.75. *)
Theorem return_book_late_fee s lid l who now now_audit v rate :
  rows (loans s) !! lid = Some l →
  date_returned l = None →
  get_setting s "late_fee_per_day" = Some v →
  py_float v = Some rate →
  let late_days := dt_day now - dt_day (date_due l) in
  ∃ l',
    rows (loans (return_book py_float s lid who now now_audit).2) !! lid
      = Some l' ∧
    (0 < late_days →
       late_fee l' = bind_real (PrimFloat.mul (float_of_int late_days) rate)) ∧
    (late_days ≤ 0 → late_fee l' = Some 0%float) ∧
    (ordinary_rate rate = true →
       late_fee l' =
       bind_real (PrimFloat.mul (float_of_int (Z.max 0 late_days)) rate)) ∧
    (late_days = 0 → late_fee l' = Some 0%float) ∧
    (late_days = 1 → rate = 0.5%float → late_fee l' = Some 0.5%float) ∧
    (late_days = 10 → rate = 0.75%float → late_fee l' = Some 7.5%float).
Proof.
  intros Hl Hopen Hv Hrate late_days.
  destruct (return_book_open s lid l who now now_audit Hl Hopen)
    as (s' & -> & Hl' & _).
  rewrite Hv in Hl'. cbn in Hl'. rewrite Hrate in Hl'. cbn in Hl'.
  change (days_between now (date_due l)) with late_days in Hl'.
  clearbody late_days.
  eexists. split; [exact Hl'|]. cbn [late_fee close_loan].
  split_and!.
  - intros. unfold charge. by rewrite bool_decide_eq_true_2.
  - intros. unfold charge. by rewrite bool_decide_eq_false_2 by lia.
  - intros Hr. by rewrite charge_max.
  - by intros ->.
  - by intros -> ->.
  - by intros -> ->.
Qed.

End LateFee.

Lemma return_book_late_fee_witness :
  rows (loans (return_book decimal_literal lent_db 1 (Some "admin")
                 (noon 738014) (noon 738014)).2) !! 1 ≫= late_fee
    = Some 0%float ∧
  rows (loans (return_book decimal_literal lent_db 1 (Some "admin")
                 (noon 738015) (noon 738015)).2) !! 1 ≫= late_fee
    = Some 0.5%float ∧
  rows (loans (return_book decimal_literal lent_db_075 1 (Some "admin")
                 (noon 738024) (noon 738024)).2) !! 1 ≫= late_fee
    = Some 7.5%float.
Proof.
  split_and!.
  - edestruct (return_book_late_fee decimal_literal lent_db 1 first_loan
                 (Some "admin")
                 (noon 738014) (noon 738014) "0.50" 0.5%float)
      as (l' & -> & _ & _ & _ & Hfee & _); [reflexivity..|].
    cbn. apply Hfee. reflexivity.
  - edestruct (return_book_late_fee decimal_literal lent_db 1 first_loan
                 (Some "admin")
                 (noon 738015) (noon 738015) "0.50" 0.5%float)
      as (l' & -> & _ & _ & _ & _ & Hfee & _); [reflexivity..|].
    cbn. apply Hfee; reflexivity.
  - edestruct (return_book_late_fee decimal_literal lent_db_075 1 first_loan
                 (Some "admin") (noon 738024) (noon 738024) "0.75" 0.75%float)
      as (l' & -> & _ & _ & _ & _ & _ & Hfee); [reflexivity..|].
    cbn. apply Hfee; reflexivity.
Defined.

(** Only the calendar dates count: a return in the last microsecond of the
    due date is on time, one in the first microsecond of the next day is a
    day late. *)
Example return_book_calendar_days :
  rows (loans (return_book decimal_literal lent_db 1 None
                 {| dt_day := 738014; dt_micro := 86399999999 |}
                 (noon 738014)).2) !! 1 ≫= late_fee = Some 0%float ∧
  rows (loans (return_book decimal_literal lent_db 1 None
                 {| dt_day := 738015; dt_micro := 0 |}
                 (noon 738015)).2) !! 1 ≫= late_fee = Some 0.5%float.
Proof. split; reflexivity. Qed.


(** ** The audit trail *)



